(** * Rename controller of the editor (vs/editor/contrib/rename/browser/rename.ts)

    A shallow embedding of [RenameController]: the selection-to-word
    resolution, the promise chain of [run] and [_prepareRename], and the two
    commands gated by the [renameInputVisible] context key.  Collaborators that
    live outside this unit (the input field, the rename provider, the bulk
    edit, the message and progress services) are taken as parameters; every
    call the controller makes on them is recorded, in program order, in a
    trace. *)

From Stdlib Require Import ZArith String List Bool Lia.
Import ListNotations.

Local Open Scope string_scope.
Local Open Scope list_scope.
Local Open Scope Z_scope.

(** ** Data model *)

(** [Position]: a line and a column, both 1-based. *)
Record Position : Type := mkPosition {
  lineNumber : Z;
  column : Z
}.

(** [IRange], the object literal built for [wordRange]. *)
Module Range.
Record t : Type := mk {
  startLineNumber : Z;
  startColumn : Z;
  endLineNumber : Z;
  endColumn : Z
}.
End Range.

(** The editor's selection.  The controller reads its four range fields and
    calls [getStartPosition] and [isEmpty] on it. *)
Module Selection.
Record t : Type := mk {
  startLineNumber : Z;
  startColumn : Z;
  endLineNumber : Z;
  endColumn : Z
}.

Definition getStartPosition (s : t) : Position :=
  mkPosition (startLineNumber s) (startColumn s).

(** Modelled from the spec: [Selection.isEmpty] is declared with the range
    classes, outside this unit; an empty (collapsed) selection is one whose
    start and end positions coincide. *)
Definition isEmpty (s : t) : bool :=
  (startLineNumber s =? endLineNumber s) && (startColumn s =? endColumn s).
End Selection.

(** [IWordAtPosition], what [getWordAtPosition] answers. *)
Module Word.
Record t : Type := mk {
  word : string;
  startColumn : Z;
  endColumn : Z
}.

(** [word.word.length] as a number. *)
Definition length (w : t) : Z := Z.of_nat (String.length (word w)).

(** The tokenizer's contract on the words it hands out: the end column is the
    start column advanced by the length of the text. *)
Definition well_formed (w : t) : Prop :=
  endColumn w = startColumn w + length w.
End Word.

(** ** Selection resolver (lines 70-85 of [run]) *)

(** The word's range on the selection's start line. *)
Definition wordRange (selection : Selection.t) (word : Word.t) : Range.t :=
  let lineNumber := Selection.startLineNumber selection in
  Range.mk lineNumber (Word.startColumn word) lineNumber (Word.endColumn word).

(** [(selectionStart, selectionEnd)] as they stand when [getInput] is called:
    initialised to the whole word, overwritten for a non-empty selection that
    stays on one line. *)
Definition selectionSubRange (selection : Selection.t) (word : Word.t) : Z * Z :=
  let selectionStart := 0 in
  let selectionEnd := Word.length word in
  if negb (Selection.isEmpty selection)
     && (Selection.startLineNumber selection =? Selection.endLineNumber selection)
  then (Z.max 0 (Selection.startColumn selection - Word.startColumn word),
        Z.min (Word.endColumn word) (Selection.endColumn selection)
          - Word.startColumn word)
  else (selectionStart, selectionEnd).

(** ** Values of the host language *)

(** What a promise can be rejected with.  The controller asks two questions
    of such a value: [typeof err === 'string'] and
    [isPromiseCanceledError(err)]. *)
Inductive JsValue : Type :=
| JsString (s : string)
| JsError (name message : string).

(** [vs/base/common/severity]. *)
Module Severity.
Inductive t : Type := Ignore | Info | Warning | Error.
End Severity.

(** How a promise ends: completed with a value, or failed with an error. *)
Inductive Settled (A : Type) : Type :=
| Fulfilled (value : A)
| Failed (err : JsValue).
Arguments Fulfilled {A} value.
Arguments Failed {A} err.

(** [nls.localize(key, message)] in the default locale. *)
Definition localize (key message : string) : string := message.

(** ** Collaborators *)

(** The text model: the controller looks a word up in it and hands the model
    itself to the rename provider. *)
Record Model : Type := mkModel {
  uri : string;
  getWordAtPosition : Position -> option Word.t
}.

(** The editor as the controller reads it.  [setSelection] is the one write
    [run] performs on it. *)
Record Editor : Type := mkEditor {
  getModel : Model;
  getSelection : Selection.t;
  getPosition : Position
}.

(** The editor after [setSelection(sel)]. *)
Definition withSelection (ed : Editor) (sel : Selection.t) : Editor :=
  mkEditor (getModel ed) sel (getPosition ed).

Record IResourceEdit : Type := mkResourceEdit {
  resource : string;
  range : Range.t;
  newText : string
}.

(** [IRenameResult]: [rejectReason] is an optional string. *)
Record IRenameResult : Type := mkRenameResult {
  edits : list IResourceEdit;
  rejectReason : option string
}.

(** The edits a [BulkEdit] has been given so far. *)
Record BulkEdit : Type := mkBulkEdit {
  recorded : list IResourceEdit
}.

(** [if (result.rejectReason)]: a reason that is present and not the empty
    string; [undefined] and [''] are both falsy. *)
Definition truthyReason (reason : option string) : option string :=
  match reason with
  | Some EmptyString => None
  | Some r => Some r
  | None => None
  end.

(** The answers of everything the controller awaits or asks, as functions of
    what it passes. *)
Record Host : Type := mkHost {
  inputOutcome : Range.t -> string -> Z -> Z -> Settled string;
  renameOutcome : Model -> Position -> string -> Settled IRenameResult;
  finishOutcome : BulkEdit -> Settled (option Selection.t);
  isPromiseCanceledError : JsValue -> bool
}.

(** ** Context key and commands *)

Record RawContextKey : Type := mkRawContextKey {
  key : string;
  defaultValue : bool
}.

Definition CONTEXT_RENAME_INPUT_VISIBLE : RawContextKey :=
  mkRawContextKey "renameInputVisible" false.

(** The two commands registered at the end of the file; both carry the
    context key as their precondition. *)
Record EditorCommand : Type := mkEditorCommand {
  id : string;
  precondition : RawContextKey
}.

Definition acceptRenameInputCommand : EditorCommand :=
  mkEditorCommand "acceptRenameInput" CONTEXT_RENAME_INPUT_VISIBLE.

Definition cancelRenameInputCommand : EditorCommand :=
  mkEditorCommand "cancelRenameInput" CONTEXT_RENAME_INPUT_VISIBLE.

(** A context in which only [renameInputVisible] is bound, to [visible]: any
    other key evaluates to its default. *)
Definition contextValue (visible : bool) (k : RawContextKey) : bool :=
  if String.eqb (key k) (key CONTEXT_RENAME_INPUT_VISIBLE)
  then visible else defaultValue k.

(** The command router dispatches a command only if its precondition holds. *)
Definition commandEnabled (visible : bool) (c : EditorCommand) : bool :=
  contextValue visible (precondition c).

(** ** Trace and state *)

Inductive Event : Type :=
| EvContextSet (value : bool)
| EvContextReset
| EvGetInput (where_ : Range.t) (value : string) (selectionStart selectionEnd : Z)
| EvFocus
| EvCreateBulkEdit
| EvRename (model : Model) (position : Position) (newName : string)
| EvBulkAdd (edits : list IResourceEdit)
| EvFinish (edit : BulkEdit)
| EvSetSelection (selection : Selection.t)
| EvMessage (severity : Severity.t) (message : string)
| EvShowWhile (delay : Z).

(** An entry pairs a call with the value of the context key right after it. *)
Definition Entry : Type := (Event * bool)%type.

Record State : Type := mkState {
  editor : Editor;
  renameInputVisible : bool;
  trace : list Entry
}.

(** The state a command invocation starts from: the key at its default,
    nothing recorded. *)
Definition initialState (ed : Editor) : State :=
  mkState ed (defaultValue CONTEXT_RENAME_INPUT_VISIBLE) [].

Definition events (s : State) : list Event := map fst (trace s).

Definition isMessage (e : Event) : bool :=
  match e with EvMessage _ _ => true | _ => false end.

Definition isRename (e : Event) : bool :=
  match e with EvRename _ _ _ => true | _ => false end.

Definition isCreateBulkEdit (e : Event) : bool :=
  match e with EvCreateBulkEdit => true | _ => false end.

Definition isBulkAdd (e : Event) : bool :=
  match e with EvBulkAdd _ => true | _ => false end.

Definition isFinish (e : Event) : bool :=
  match e with EvFinish _ => true | _ => false end.

Definition isSetSelection (e : Event) : bool :=
  match e with EvSetSelection _ => true | _ => false end.

(** ** Synchronous code and promises *)

(** Code that runs to its end within one turn. *)
Definition Sync (A : Type) : Type := State -> A * State.

(** A promise that has been created: what happens from now until it settles.
    Creating it is a [Sync] step of its own (the call is issued at once); the
    callbacks given to [then_] run only in here. *)
Definition TPromise (A : Type) : Type := State -> Settled A * State.

Definition ret {A : Type} (a : A) : Sync A := fun s => (a, s).

Definition bind {A B : Type} (c : Sync A) (k : A -> Sync B) : Sync B :=
  fun s => let (a, s1) := c s in k a s1.

Declare Scope sync_scope.
Delimit Scope sync_scope with sync.
Notation "x <- c ;; k" := (bind c (fun x => k))
  (at level 61, c at next level, right associativity) : sync_scope.
Notation "c ;; k" := (bind c (fun _ => k))
  (at level 61, right associativity) : sync_scope.
Local Open Scope sync_scope.

(** [TPromise.as(value)], and a callback that returns a plain value. *)
Definition resolved {A : Type} (a : A) : TPromise A := fun s => (Fulfilled a, s).

(** [TPromise.wrapError(err)]. *)
Definition wrapError {A : Type} (err : JsValue) : TPromise A :=
  fun s => (Failed err, s).

(** [p.then(onFulfilled, onRejected)], the contract of promises that
    [TPromise] follows: exactly one of the callbacks runs, on the outcome of
    [p]; the promise it returns takes over.  A failure of the promise returned
    by [onFulfilled] does not reach [onRejected]. *)
Definition then_ {A B : Type} (p : TPromise A)
    (onFulfilled : A -> Sync (TPromise B))
    (onRejected : JsValue -> Sync (TPromise B)) : TPromise B :=
  fun s =>
    match p s with
    | (Fulfilled a, s1) => let (q, s2) := onFulfilled a s1 in q s2
    | (Failed err, s1) => let (q, s2) := onRejected err s1 in q s2
    end.

(** [p.then(onFulfilled)]: a failure of [p] passes through. *)
Definition then1 {A B : Type} (p : TPromise A)
    (onFulfilled : A -> Sync (TPromise B)) : TPromise B :=
  then_ p onFulfilled (fun err => ret (wrapError err)).

(** Record a call, with the context key as it stands. *)
Definition log (e : Event) : Sync unit :=
  fun s => (tt, mkState (editor s) (renameInputVisible s)
                        (trace s ++ [(e, renameInputVisible s)])).

(** ** The controller *)

Section RenameController.

Variable host : Host.

(** *** What the controller calls *)

Definition editor_getSelection : Sync Selection.t :=
  fun s => (getSelection (editor s), s).

Definition editor_getModel : Sync Model :=
  fun s => (getModel (editor s), s).

Definition editor_getPosition : Sync Position :=
  fun s => (getPosition (editor s), s).

Definition editor_focus : Sync unit := log EvFocus.

Definition editor_setSelection (selection : Selection.t) : Sync unit :=
  fun s =>
    log (EvSetSelection selection)
        (mkState (withSelection (editor s) selection)
                 (renameInputVisible s) (trace s)).

(** [this._renameInputVisible.set(value)]. *)
Definition _renameInputVisible_set (value : bool) : Sync unit :=
  fun s => log (EvContextSet value) (mkState (editor s) value (trace s)).

(** Modelled from the spec: [IContextKey.reset] is declared with the context
    key service, outside this unit; the key goes back to [false], the default
    it was created with. *)
Definition _renameInputVisible_reset : Sync unit :=
  fun s =>
    log EvContextReset
        (mkState (editor s) (defaultValue CONTEXT_RENAME_INPUT_VISIBLE) (trace s)).

Definition messageService_show (severity : Severity.t) (message : string)
  : Sync unit :=
  log (EvMessage severity message).

(** [this._progressService.showWhile(promise, delay)]. *)
Definition progressService_showWhile {A : Type} (promise : TPromise A)
    (delay : Z) : Sync unit :=
  log (EvShowWhile delay).

(** [this._renameInputField.getInput(...)]: shows the field at once; the
    promise settles with what the user does. *)
Definition getInput (where_ : Range.t) (value : string)
    (selectionStart selectionEnd : Z) : Sync (TPromise string) :=
  log (EvGetInput where_ value selectionStart selectionEnd) ;;
  ret (fun s => (inputOutcome host where_ value selectionStart selectionEnd, s)).

Definition createBulkEdit : Sync BulkEdit :=
  log EvCreateBulkEdit ;; ret (mkBulkEdit []).

Definition rename (model : Model) (position : Position) (newName : string)
  : Sync (TPromise IRenameResult) :=
  log (EvRename model position newName) ;;
  ret (fun s => (renameOutcome host model position newName, s)).

Definition BulkEdit_add (edit : BulkEdit) (es : list IResourceEdit)
  : Sync BulkEdit :=
  log (EvBulkAdd es) ;; ret (mkBulkEdit (recorded edit ++ es)).

Definition BulkEdit_finish (edit : BulkEdit)
  : Sync (TPromise (option Selection.t)) :=
  log (EvFinish edit) ;; ret (fun s => (finishOutcome host edit, s)).

(** *** [_prepareRename] *)

Definition _prepareRename (newName : string) : Sync (TPromise BulkEdit) :=
  edit <- createBulkEdit ;;
  model <- editor_getModel ;;
  position <- editor_getPosition ;;
  renamed <- rename model position newName ;;
  ret (then1 renamed (fun result =>
    match truthyReason (rejectReason result) with
    | Some reason => ret (wrapError (JsString reason))
    | None =>
        edit' <- BulkEdit_add edit (edits result) ;;
        ret (resolved edit')
    end)).

(** *** [run] *)

(** The first callback of [renameOperation]: commit, then place the
    selection. *)
Definition onPrepared (edit : BulkEdit) : Sync (TPromise unit) :=
  finished <- BulkEdit_finish edit ;;
  ret (then1 finished (fun selection =>
    match selection with
    | Some sel => editor_setSelection sel ;; ret (resolved tt)
    | None => ret (resolved tt)
    end)).

(** The second callback of [renameOperation]. *)
Definition onPrepareError (err : JsValue) : Sync (TPromise unit) :=
  match err with
  | JsString reason =>
      messageService_show Severity.Info reason ;; ret (resolved tt)
  | _ =>
      messageService_show Severity.Error
        (localize "rename.failed" "Sorry, rename failed to execute.") ;;
      ret (wrapError err)
  end.

(** The callback for an accepted name. *)
Definition onNewName (newName : string) : Sync (TPromise unit) :=
  _renameInputVisible_reset ;;
  editor_focus ;;
  prepared <- _prepareRename newName ;;
  let renameOperation := then_ prepared onPrepared onPrepareError in
  progressService_showWhile renameOperation 250 ;;
  ret renameOperation.

(** The callback for a failed input session. *)
Definition onInputError (err : JsValue) : Sync (TPromise unit) :=
  _renameInputVisible_reset ;;
  editor_focus ;;
  if negb (isPromiseCanceledError host err)
  then ret (wrapError err)
  else ret (resolved tt).

(** [run()]: [None] is the bare [return] of the no-word case. *)
Definition run : Sync (option (TPromise unit)) :=
  selection <- editor_getSelection ;;
  model <- editor_getModel ;;
  match getWordAtPosition model (Selection.getStartPosition selection) with
  | None => ret None
  | Some word =>
      let '(selectionStart, selectionEnd) := selectionSubRange selection word in
      _renameInputVisible_set true ;;
      input <- getInput (wordRange selection word) (Word.word word)
                        selectionStart selectionEnd ;;
      ret (Some (then_ input onNewName onInputError))
  end.

(** *** Running an invocation to its end *)

Inductive RunResult : Type :=
| ReturnedUndefined
| Resolved
| RejectedWith (err : JsValue).

(** The synchronous part of [run], then the promise it returned until it
    settles. *)
Definition runToCompletion (s : State) : RunResult * State :=
  match run s with
  | (None, s1) => (ReturnedUndefined, s1)
  | (Some p, s1) =>
      match p s1 with
      | (Fulfilled _, s2) => (Resolved, s2)
      | (Failed err, s2) => (RejectedWith err, s2)
      end
  end.

End RenameController.

(** ** Concrete editors and hosts *)

Definition fooWord : Word.t := Word.mk "foo" 5 8.
Definition fooBarWord : Word.t := Word.mk "fooBar" 1 7.

Definition blankModel : Model := mkModel "file:///blank.ts" (fun _ => None).

Definition fooModel : Model := mkModel "file:///a.ts" (fun _ => Some fooWord).

Definition blankEditor : Editor :=
  mkEditor blankModel (Selection.mk 1 5 1 5) (mkPosition 1 5).

Definition fooEditor : Editor :=
  mkEditor fooModel (Selection.mk 1 5 1 5) (mkPosition 1 5).

Definition fooBarEditor : Editor :=
  mkEditor (mkModel "file:///b.ts" (fun _ => Some fooBarWord))
           (Selection.mk 1 4 1 6) (mkPosition 1 6).

Definition canceled : JsValue := JsError "Canceled" "Canceled".

Definition isCanceled (v : JsValue) : bool :=
  match v with
  | JsError n m => String.eqb n "Canceled" && String.eqb m "Canceled"
  | JsString _ => false
  end.

Definition oneEdit : IResourceEdit :=
  mkResourceEdit "file:///a.ts" (Range.mk 1 5 1 8) "bar".

Definition movedSelection : Selection.t := Selection.mk 1 8 1 8.

(** A host in which the user accepts ["bar"], the provider answers with one
    edit and the commit succeeds with a selection. *)
Definition happyHost : Host :=
  mkHost (fun _ _ _ _ => Fulfilled "bar")
         (fun _ _ _ => Fulfilled (mkRenameResult [oneEdit] None))
         (fun _ => Fulfilled (Some movedSelection))
         isCanceled.

(** The user dismisses the field: the session fails with the cancellation
    error. *)
Definition cancelHost : Host :=
  mkHost (fun _ _ _ _ => Failed canceled)
         (fun _ _ _ => Fulfilled (mkRenameResult [oneEdit] None))
         (fun _ => Fulfilled (Some movedSelection))
         isCanceled.

Definition widgetError : JsValue := JsError "TypeError" "widget disposed".

(** The input session fails with something other than a cancellation. *)
Definition brokenInputHost : Host :=
  mkHost (fun _ _ _ _ => Failed widgetError)
         (fun _ _ _ => Fulfilled (mkRenameResult [oneEdit] None))
         (fun _ => Fulfilled (Some movedSelection))
         isCanceled.

Definition noReferences : IRenameResult :=
  mkRenameResult [] (Some "no other references found").

(** The provider declines with a reason. *)
Definition rejectingHost : Host :=
  mkHost (fun _ _ _ _ => Fulfilled "bar")
         (fun _ _ _ => Fulfilled noReferences)
         (fun _ => Fulfilled None)
         isCanceled.

Definition emptyReason : IRenameResult := mkRenameResult [oneEdit] (Some "").

(** The provider answers with a reason that is the empty string. *)
Definition emptyReasonHost : Host :=
  mkHost (fun _ _ _ _ => Fulfilled "bar")
         (fun _ _ _ => Fulfilled emptyReason)
         (fun _ => Fulfilled None)
         isCanceled.

Definition conflict : JsValue := JsError "Error" "files changed in the meantime".

(** The provider answers with one edit and the commit fails. *)
Definition conflictHost : Host :=
  mkHost (fun _ _ _ _ => Fulfilled "bar")
         (fun _ _ _ => Fulfilled (mkRenameResult [oneEdit] None))
         (fun _ => Failed conflict)
         isCanceled.

(** The commit succeeds and yields no selection. *)
Definition quietHost : Host :=
  mkHost (fun _ _ _ _ => Fulfilled "bar")
         (fun _ _ _ => Fulfilled (mkRenameResult [oneEdit] None))
         (fun _ => Fulfilled None)
         isCanceled.

(** ** One invocation, path by path *)

(** The word [run] finds, if any. *)
Definition wordUnderCursor (ed : Editor) : option Word.t :=
  getWordAtPosition (getModel ed) (Selection.getStartPosition (getSelection ed)).

(** How the input session shown for [w] ends. *)
Definition inputOf (host : Host) (ed : Editor) (w : Word.t) : Settled string :=
  inputOutcome host (wordRange (getSelection ed) w) (Word.word w)
    (fst (selectionSubRange (getSelection ed) w))
    (snd (selectionSubRange (getSelection ed) w)).

(** What the rename provider answers for [newName]. *)
Definition renameOf (host : Host) (ed : Editor) (newName : string)
  : Settled IRenameResult :=
  renameOutcome host (getModel ed) (getPosition ed) newName.

(** How the commit of the edits of [result] ends. *)
Definition commitOf (host : Host) (result : IRenameResult)
  : Settled (option Selection.t) :=
  finishOutcome host (mkBulkEdit (edits result)).

(** The calls up to and including the display of the input field. *)
Definition shownTrace (ed : Editor) (w : Word.t) : list Entry :=
  [ (EvContextSet true, true);
    (EvGetInput (wordRange (getSelection ed) w) (Word.word w)
       (fst (selectionSubRange (getSelection ed) w))
       (snd (selectionSubRange (getSelection ed) w)), true) ].

(** The first two calls of either callback of the input session. *)
Definition closedTrace : list Entry :=
  [ (EvContextReset, false); (EvFocus, false) ].

(** The synchronous remainder of the accepting callback. *)
Definition startedTrace (ed : Editor) (newName : string) : list Entry :=
  [ (EvCreateBulkEdit, false);
    (EvRename (getModel ed) (getPosition ed) newName, false);
    (EvShowWhile 250, false) ].

(** The calls of a commit. *)
Definition commitTrace (result : IRenameResult) : list Entry :=
  [ (EvBulkAdd (edits result), false);
    (EvFinish (mkBulkEdit (edits result)), false) ].

Definition rename_failed_message : string :=
  localize "rename.failed" "Sorry, rename failed to execute.".

(** ** Properties of traces *)

(** Every entry of a trace was recorded with the context key at [false]. *)
Definition hiddenThroughout (entries : list Entry) : Prop :=
  Forall (fun entry => snd entry = false) entries.

(** Neither the provider nor [createBulkEdit] is called in [entries]. *)
Definition noRenameCalls (entries : list Entry) : Prop :=
  existsb isRename (map fst entries) = false
  /\ existsb isCreateBulkEdit (map fst entries) = false.

(** Both commands are refused by the router when the key has value [visible]. *)
Definition commandsDisabled (visible : bool) : Prop :=
  commandEnabled visible acceptRenameInputCommand = false
  /\ commandEnabled visible cancelRenameInputCommand = false.

(** What a rejection with [reason] is to lead to: the promise of [run]
    resolves, the one message shown is [reason] at informational severity, no
    edits are added to the transaction and [finish] is not called. *)
Definition rejectionAbsorbed (host : Host) (ed : Editor) (reason : string)
  : Prop :=
  fst (runToCompletion host (initialState ed)) = Resolved
  /\ filter isMessage (events (snd (runToCompletion host (initialState ed))))
     = [EvMessage Severity.Info reason]
  /\ existsb isBulkAdd (events (snd (runToCompletion host (initialState ed))))
     = false
  /\ existsb isFinish (events (snd (runToCompletion host (initialState ed))))
     = false.

Definition isShowWhile (e : Event) : bool :=
  match e with EvShowWhile _ => true | _ => false end.

(** [typeof err === 'string']. *)
Definition isJsString (v : JsValue) : bool :=
  match v with JsString _ => true | JsError _ _ => false end.

Definition providerDown : JsValue := JsError "Error" "provider failed".

(** The provider fails with an [Error] object. *)
Definition providerErrorHost : Host :=
  mkHost (fun _ _ _ _ => Fulfilled "bar")
         (fun _ _ _ => Failed providerDown)
         (fun _ => Fulfilled None)
         isCanceled.

(** The provider fails with a plain string. *)
Definition providerStringHost : Host :=
  mkHost (fun _ _ _ _ => Fulfilled "bar")
         (fun _ _ _ => Failed (JsString "No result."))
         (fun _ => Fulfilled None)
         isCanceled.

(** A state in the middle of things: the key already [true] and a call
    already recorded. *)
Definition busyState : State :=
  mkState fooEditor true [(EvContextSet true, true)].

Ltac unfold_controller :=
  unfold runToCompletion, run, onNewName, onInputError, onPrepared,
    onPrepareError, _prepareRename, then1, then_, getInput, rename,
    createBulkEdit, BulkEdit_add, BulkEdit_finish, progressService_showWhile,
    messageService_show, _renameInputVisible_set, _renameInputVisible_reset,
    editor_focus, editor_setSelection, editor_getSelection, editor_getModel,
    editor_getPosition, withSelection, log, bind, ret, resolved, wrapError,
    initialState.

Section Invocation.

Variable host : Host.
Variable ed : Editor.

Lemma run_without_word (s : State) :
  wordUnderCursor (editor s) = None -> run host s = (None, s).
Proof.
  unfold wordUnderCursor; intros Hnone.
  unfold run, bind, ret, editor_getSelection, editor_getModel.
  now rewrite Hnone.
Qed.

Variable w : Word.t.
Hypothesis Hword : wordUnderCursor ed = Some w.

(** The synchronous part of [run]: key set, field shown, promise returned. *)
Lemma run_shows_input :
  run host (initialState ed)
  = (Some (then_ (fun s => (inputOf host ed w, s))
                 (onNewName host) (onInputError host)),
     mkState ed true (shownTrace ed w)).
Proof.
  unfold wordUnderCursor in Hword.
  unfold run, bind, ret, editor_getSelection, editor_getModel, initialState.
  cbn [editor]. rewrite Hword.
  unfold inputOf, shownTrace.
  destruct (selectionSubRange (getSelection ed) w) as [a b].
  reflexivity.
Qed.

Lemma runToCompletion_settles :
  runToCompletion host (initialState ed)
  = match then_ (fun s => (inputOf host ed w, s))
                (onNewName host) (onInputError host)
                (mkState ed true (shownTrace ed w)) with
    | (Fulfilled _, s2) => (Resolved, s2)
    | (Failed err, s2) => (RejectedWith err, s2)
    end.
Proof. unfold runToCompletion. now rewrite run_shows_input. Qed.

Lemma path_input_failed (err : JsValue) :
  inputOf host ed w = Failed err ->
  runToCompletion host (initialState ed)
  = (if isPromiseCanceledError host err then Resolved else RejectedWith err,
     mkState ed false (shownTrace ed w ++ closedTrace)).
Proof.
  intros Hin. rewrite runToCompletion_settles.
  unfold_controller. rewrite Hin. cbn.
  now destruct (isPromiseCanceledError host err).
Qed.

Variable newName : string.
Hypothesis Hinput : inputOf host ed w = Fulfilled newName.

Lemma path_rename_failed (err : JsValue) :
  renameOf host ed newName = Failed err ->
  runToCompletion host (initialState ed)
  = match err with
    | JsString reason =>
        (Resolved,
         mkState ed false
           (shownTrace ed w ++ closedTrace ++ startedTrace ed newName
              ++ [(EvMessage Severity.Info reason, false)]))
    | _ =>
        (RejectedWith err,
         mkState ed false
           (shownTrace ed w ++ closedTrace ++ startedTrace ed newName
              ++ [(EvMessage Severity.Error rename_failed_message, false)]))
    end.
Proof.
  unfold renameOf; intros Hren. rewrite runToCompletion_settles.
  unfold_controller. rewrite Hinput. cbn. rewrite Hren.
  now destruct err.
Qed.

Variable result : IRenameResult.
Hypothesis Hrename : renameOf host ed newName = Fulfilled result.

Lemma path_rejected (reason : string) :
  truthyReason (rejectReason result) = Some reason ->
  runToCompletion host (initialState ed)
  = (Resolved,
     mkState ed false
       (shownTrace ed w ++ closedTrace ++ startedTrace ed newName
          ++ [(EvMessage Severity.Info reason, false)])).
Proof.
  unfold renameOf in Hrename; intros Hrej. rewrite runToCompletion_settles.
  unfold_controller. rewrite Hinput. cbn. rewrite Hrename, Hrej.
  reflexivity.
Qed.

Hypothesis Hedits : truthyReason (rejectReason result) = None.

Lemma path_commit_failed (err : JsValue) :
  commitOf host result = Failed err ->
  runToCompletion host (initialState ed)
  = (RejectedWith err,
     mkState ed false
       (shownTrace ed w ++ closedTrace ++ startedTrace ed newName
          ++ commitTrace result)).
Proof.
  unfold renameOf in Hrename; unfold commitOf; intros Hfin.
  rewrite runToCompletion_settles.
  unfold_controller. rewrite Hinput. cbn. rewrite Hrename, Hedits. cbn.
  now rewrite Hfin.
Qed.

Lemma path_committed (selection : option Selection.t) :
  commitOf host result = Fulfilled selection ->
  runToCompletion host (initialState ed)
  = (Resolved,
     match selection with
     | Some sel =>
         mkState (withSelection ed sel) false
           (shownTrace ed w ++ closedTrace ++ startedTrace ed newName
              ++ commitTrace result ++ [(EvSetSelection sel, false)])
     | None =>
         mkState ed false
           (shownTrace ed w ++ closedTrace ++ startedTrace ed newName
              ++ commitTrace result)
     end).
Proof.
  unfold renameOf in Hrename; unfold commitOf; intros Hfin.
  rewrite runToCompletion_settles.
  unfold_controller. rewrite Hinput. cbn. rewrite Hrename, Hedits. cbn.
  rewrite Hfin. now destruct selection.
Qed.

End Invocation.

(** ** Selection resolver *)

Lemma selectionSubRange_whole_word (selection : Selection.t) (word : Word.t) :
  Selection.isEmpty selection = true
  \/ Selection.startLineNumber selection <> Selection.endLineNumber selection ->
  selectionSubRange selection word = (0, Word.length word).
Proof.
  unfold selectionSubRange.
  intros [Hempty | Hlines].
  - now rewrite Hempty.
  - apply Z.eqb_neq in Hlines. rewrite Hlines.
    now rewrite andb_false_r.
Qed.

Lemma selectionSubRange_clamped (selection : Selection.t) (word : Word.t) :
  Selection.isEmpty selection = false ->
  Selection.startLineNumber selection = Selection.endLineNumber selection ->
  selectionSubRange selection word
  = (Z.max 0 (Selection.startColumn selection - Word.startColumn word),
     Z.min (Word.endColumn word) (Selection.endColumn selection)
       - Word.startColumn word).
Proof.
  unfold selectionSubRange.
  intros Hempty Hline. apply Z.eqb_eq in Hline.
  now rewrite Hempty, Hline.
Qed.

(** C4: for a non-empty selection on one line whose start column lies within
    the word (between the word's start and end columns) and does not exceed
    its end column, the sub-range handed to the input field satisfies
    [0 <= selectionStart <= selectionEnd <= len(word)], the word being one the
    tokenizer produced (its end column is its start column plus its length);
    and for an empty or multi-line selection the sub-range is exactly
    [(0, len(word))]. *)
Theorem C4_sub_range_bounds (selection : Selection.t) (word : Word.t) :
  (Word.well_formed word ->
   Selection.isEmpty selection = false ->
   Selection.startLineNumber selection = Selection.endLineNumber selection ->
   Word.startColumn word <= Selection.startColumn selection <= Word.endColumn word ->
   Selection.startColumn selection <= Selection.endColumn selection ->
   0 <= fst (selectionSubRange selection word)
     <= snd (selectionSubRange selection word)
   /\ snd (selectionSubRange selection word) <= Word.length word)
  /\
  (Selection.isEmpty selection = true
   \/ Selection.startLineNumber selection <> Selection.endLineNumber selection ->
   selectionSubRange selection word = (0, Word.length word)).
Proof.
  split.
  - unfold Word.well_formed.
    intros Hwf Hempty Hline Hin Hord.
    rewrite (selectionSubRange_clamped _ _ Hempty Hline). cbn [fst snd].
    lia.
  - apply selectionSubRange_whole_word.
Qed.

Lemma C4_sub_range_bounds_witness :
  (0 <= fst (selectionSubRange (Selection.mk 1 4 1 6) fooBarWord)
     <= snd (selectionSubRange (Selection.mk 1 4 1 6) fooBarWord)
   /\ snd (selectionSubRange (Selection.mk 1 4 1 6) fooBarWord)
      <= Word.length fooBarWord)
  /\ selectionSubRange (Selection.mk 1 4 3 6) fooBarWord
     = (0, Word.length fooBarWord).
Proof.
  split.
  - apply (proj1 (C4_sub_range_bounds (Selection.mk 1 4 1 6) fooBarWord)).
    + reflexivity.
    + reflexivity.
    + reflexivity.
    + cbn; lia.
    + cbn; lia.
  - apply (proj2 (C4_sub_range_bounds (Selection.mk 1 4 3 6) fooBarWord)).
    right. cbn. lia.
Defined.

(** C9: the word "foo" at columns 5-8 with a selection collapsed at column 5
    gets the sub-range [(0, 3)], and the word "fooBar" at columns 1-7 with a
    selection over columns 4-6 gets [(3, 5)]; both are what [run] passes to
    the input field. *)
Theorem C9_sub_range_scenarios :
  selectionSubRange (Selection.mk 1 5 1 5) (Word.mk "foo" 5 8) = (0, 3)
  /\ selectionSubRange (Selection.mk 1 4 1 6) (Word.mk "fooBar" 1 7) = (3, 5)
  /\ (forall host, exists p s,
        run host (initialState fooEditor) = (Some p, s)
        /\ events s
           = [EvContextSet true; EvGetInput (Range.mk 1 5 1 8) "foo" 0 3])
  /\ (forall host, exists p s,
        run host (initialState fooBarEditor) = (Some p, s)
        /\ events s
           = [EvContextSet true; EvGetInput (Range.mk 1 1 1 7) "fooBar" 3 5]).
Proof.
  repeat split; try reflexivity.
  - intros host. eexists; eexists. split.
    + apply (run_shows_input host fooEditor fooWord). reflexivity.
    + reflexivity.
  - intros host. eexists; eexists. split.
    + apply (run_shows_input host _ fooBarWord). reflexivity.
    + reflexivity.
Qed.

(** ** No word under the cursor *)

(** C5: when the model has no word at the selection's start, [run] returns at
    once with no promise: the state is untouched, so no input field was shown,
    the context key was not set, no message was shown, and nothing failed. *)
Theorem C5_no_word_no_effect (host : Host) (s : State) :
  wordUnderCursor (editor s) = None ->
  runToCompletion host s = (ReturnedUndefined, s).
Proof.
  intros Hnone. unfold runToCompletion.
  now rewrite (run_without_word host s Hnone).
Qed.

Lemma C5_no_word_no_effect_witness :
  wordUnderCursor (editor (initialState blankEditor)) = None
  /\ runToCompletion happyHost (initialState blankEditor)
     = (ReturnedUndefined, initialState blankEditor).
Proof.
  split.
  - reflexivity.
  - apply (C5_no_word_no_effect happyHost (initialState blankEditor)).
    reflexivity.
Defined.

(** ** The input session *)

Lemma hiddenThroughout_app (l1 l2 : list Entry) :
  hiddenThroughout l1 -> hiddenThroughout l2 -> hiddenThroughout (l1 ++ l2).
Proof. intros H1 H2. apply Forall_app. now split. Qed.

Lemma closedTrace_hidden : hiddenThroughout closedTrace.
Proof. repeat constructor. Qed.

Lemma startedTrace_hidden (ed : Editor) (newName : string) :
  hiddenThroughout (startedTrace ed newName).
Proof. repeat constructor. Qed.

Lemma commitTrace_hidden (result : IRenameResult) :
  hiddenThroughout (commitTrace result).
Proof. repeat constructor. Qed.

Create HintDb rename.

#[local] Hint Resolve hiddenThroughout_app closedTrace_hidden
  startedTrace_hidden commitTrace_hidden : rename.

(** Whatever the collaborators answer, an invocation that found a word ends
    with the key at [false], and everything after the display of the field
    was recorded with the key at [false]. *)
Lemma settled_after_input (host : Host) (ed : Editor) (w : Word.t) :
  wordUnderCursor ed = Some w ->
  exists rest,
    trace (snd (runToCompletion host (initialState ed)))
    = shownTrace ed w ++ closedTrace ++ rest
    /\ hiddenThroughout rest
    /\ renameInputVisible (snd (runToCompletion host (initialState ed))) = false.
Proof.
  intros Hword.
  destruct (inputOf host ed w) as [newName | err] eqn:Hin.
  2:{ rewrite (path_input_failed host ed w Hword err Hin).
      exists []. cbn [snd trace renameInputVisible].
      rewrite app_nil_r. repeat split. constructor. }
  destruct (renameOf host ed newName) as [result | err] eqn:Hren.
  2:{ rewrite (path_rename_failed host ed w Hword newName Hin err Hren).
      destruct err; eexists; cbn [snd trace renameInputVisible];
        (split; [reflexivity | split; [ | reflexivity]]);
        apply hiddenThroughout_app; auto with rename; repeat constructor. }
  destruct (truthyReason (rejectReason result)) as [reason | ] eqn:Hrej.
  { rewrite (path_rejected host ed w Hword newName Hin result Hren reason Hrej).
    eexists; cbn [snd trace renameInputVisible].
    split; [reflexivity | split; [ | reflexivity]].
    apply hiddenThroughout_app; auto with rename; repeat constructor. }
  destruct (commitOf host result) as [selection | err] eqn:Hfin.
  2:{ rewrite (path_commit_failed host ed w Hword newName Hin result Hren Hrej
                 err Hfin).
      eexists; cbn [snd trace renameInputVisible].
      split; [reflexivity | split; [ | reflexivity]].
      auto with rename. }
  rewrite (path_committed host ed w Hword newName Hin result Hren Hrej
             selection Hfin).
  destruct selection as [sel | ]; eexists; cbn [snd trace renameInputVisible];
    (split; [reflexivity | split; [ | reflexivity]]).
  - apply hiddenThroughout_app; auto with rename.
    apply hiddenThroughout_app; auto with rename. repeat constructor.
  - auto with rename.
Qed.

(** C3: the context key is set to [true] right before the input field is
    shown and is [true] while the session is pending; on every way the
    session can end (a name accepted, or any failure, cancellation and focus
    loss included) the first thing recorded is the reset of the key to
    [false], every later call sees it [false], and it is [false] when the
    invocation ends. *)
Theorem C3_visibility_flag_lifecycle (host : Host) (ed : Editor) (w : Word.t) :
  wordUnderCursor ed = Some w ->
  exists p shown,
    run host (initialState ed) = (Some p, shown)
    /\ trace shown
       = [ (EvContextSet true, true);
           (EvGetInput (wordRange (getSelection ed) w) (Word.word w)
              (fst (selectionSubRange (getSelection ed) w))
              (snd (selectionSubRange (getSelection ed) w)), true) ]
    /\ renameInputVisible shown = true
    /\ exists rest,
         trace (snd (p shown))
         = trace shown ++ (EvContextReset, false) :: rest
         /\ hiddenThroughout rest
         /\ renameInputVisible (snd (p shown)) = false.
Proof.
  intros Hword.
  destruct (settled_after_input host ed w Hword) as (rest & Htrace & Hrest & Hend).
  unfold runToCompletion in Htrace, Hend.
  rewrite (run_shows_input host ed w Hword) in Htrace, Hend.
  eexists; eexists. split; [apply (run_shows_input host ed w Hword) | ].
  cbn [trace renameInputVisible]. split; [reflexivity | split; [reflexivity | ]].
  match goal with
  | |- context [snd (?p ?s)] => destruct (p s) as [[v | err] s2]
  end; cbn [snd] in *;
    (exists ((EvFocus, false) :: rest); split; [exact Htrace | split; [ | exact Hend]]);
    constructor; auto.
Qed.

Lemma C3_visibility_flag_lifecycle_witness :
  wordUnderCursor fooEditor = Some fooWord
  /\ exists p shown,
       run cancelHost (initialState fooEditor) = (Some p, shown)
       /\ trace shown
          = [ (EvContextSet true, true);
              (EvGetInput (wordRange (getSelection fooEditor) fooWord)
                 (Word.word fooWord)
                 (fst (selectionSubRange (getSelection fooEditor) fooWord))
                 (snd (selectionSubRange (getSelection fooEditor) fooWord)),
               true) ]
       /\ renameInputVisible shown = true
       /\ exists rest,
            trace (snd (p shown))
            = trace shown ++ (EvContextReset, false) :: rest
            /\ hiddenThroughout rest
            /\ renameInputVisible (snd (p shown)) = false.
Proof.
  split.
  - reflexivity.
  - apply (C3_visibility_flag_lifecycle cancelHost fooEditor fooWord).
    reflexivity.
Defined.

(** C7: when the input session fails with [err], the context key is reset and
    the editor focused, and nothing else is called (so nothing is shown); if
    [err] is the promise-cancellation error the promise of [run] resolves,
    otherwise it is rejected with [err]. *)
Theorem C7_input_error_path (host : Host) (ed : Editor) (w : Word.t)
    (err : JsValue) :
  wordUnderCursor ed = Some w ->
  inputOf host ed w = Failed err ->
  trace (snd (runToCompletion host (initialState ed)))
  = shownTrace ed w ++ [(EvContextReset, false); (EvFocus, false)]
  /\ renameInputVisible (snd (runToCompletion host (initialState ed))) = false
  /\ existsb isMessage (events (snd (runToCompletion host (initialState ed))))
     = false
  /\ (isPromiseCanceledError host err = true ->
      fst (runToCompletion host (initialState ed)) = Resolved)
  /\ (isPromiseCanceledError host err = false ->
      fst (runToCompletion host (initialState ed)) = RejectedWith err).
Proof.
  intros Hword Hin.
  rewrite (path_input_failed host ed w Hword err Hin).
  cbn [fst snd trace renameInputVisible].
  repeat split.
  - intros Hc. now rewrite Hc.
  - intros Hc. now rewrite Hc.
Qed.

Lemma C7_input_error_path_witness :
  (wordUnderCursor fooEditor = Some fooWord
   /\ inputOf cancelHost fooEditor fooWord = Failed canceled
   /\ fst (runToCompletion cancelHost (initialState fooEditor)) = Resolved)
  /\ (inputOf brokenInputHost fooEditor fooWord = Failed widgetError
      /\ fst (runToCompletion brokenInputHost (initialState fooEditor))
         = RejectedWith widgetError).
Proof.
  split.
  - split; [reflexivity | split; [reflexivity | ]].
    apply (C7_input_error_path cancelHost fooEditor fooWord canceled);
      reflexivity.
  - split; [reflexivity | ].
    apply (C7_input_error_path brokenInputHost fooEditor fooWord widgetError);
      reflexivity.
Defined.

(** ** The accepted path *)

Lemma commandsDisabled_hidden : commandsDisabled false.
Proof. split; reflexivity. Qed.

Lemma hiddenThroughout_disabled (entries : list Entry) :
  hiddenThroughout entries ->
  Forall (fun entry => commandsDisabled (snd entry)) entries.
Proof.
  unfold hiddenThroughout. intros H.
  eapply Forall_impl; [ | exact H].
  intros [e v] Hv. cbn in *. subst v. exact commandsDisabled_hidden.
Qed.

(** Once a name is accepted: reset, focus, transaction, provider call and
    progress, in that order, and then whatever the outcome adds. *)
Lemma accepted_trace (host : Host) (ed : Editor) (w : Word.t)
    (newName : string) :
  wordUnderCursor ed = Some w ->
  inputOf host ed w = Fulfilled newName ->
  exists rest,
    trace (snd (runToCompletion host (initialState ed)))
    = shownTrace ed w ++ closedTrace ++ startedTrace ed newName ++ rest
    /\ hiddenThroughout rest
    /\ noRenameCalls rest
    /\ renameInputVisible (snd (runToCompletion host (initialState ed))) = false.
Proof.
  intros Hword Hin.
  destruct (renameOf host ed newName) as [result | err] eqn:Hren.
  2:{ rewrite (path_rename_failed host ed w Hword newName Hin err Hren).
      destruct err; eexists; cbn [snd trace renameInputVisible];
        (split; [reflexivity | ]); repeat split; repeat constructor. }
  destruct (truthyReason (rejectReason result)) as [reason | ] eqn:Hrej.
  { rewrite (path_rejected host ed w Hword newName Hin result Hren reason Hrej).
    eexists; cbn [snd trace renameInputVisible].
    split; [reflexivity | ]. repeat split; repeat constructor. }
  destruct (commitOf host result) as [selection | err] eqn:Hfin.
  2:{ rewrite (path_commit_failed host ed w Hword newName Hin result Hren Hrej
                 err Hfin).
      eexists; cbn [snd trace renameInputVisible].
      split; [reflexivity | ]. repeat split; repeat constructor. }
  rewrite (path_committed host ed w Hword newName Hin result Hren Hrej
             selection Hfin).
  destruct selection as [sel | ]; eexists; cbn [snd trace renameInputVisible];
    (split; [reflexivity | ]); repeat split; repeat constructor.
Qed.

(** C6: once a name is accepted, [createBulkEdit] is called exactly once and
    right before the one call of the rename provider, which receives the
    editor's model, the editor's position as they were when [run] started,
    and the accepted name. *)
Theorem C6_transaction_opened_before_rename (host : Host) (ed : Editor)
    (w : Word.t) (newName : string) :
  wordUnderCursor ed = Some w ->
  inputOf host ed w = Fulfilled newName ->
  exists before after,
    events (snd (runToCompletion host (initialState ed)))
    = before ++ EvCreateBulkEdit
        :: EvRename (getModel ed) (getPosition ed) newName :: after
    /\ existsb isRename before = false
    /\ existsb isCreateBulkEdit before = false
    /\ existsb isRename after = false
    /\ existsb isCreateBulkEdit after = false.
Proof.
  intros Hword Hin.
  destruct (accepted_trace host ed w newName Hword Hin)
    as (rest & Htrace & _ & [Hnr Hnc] & _).
  exists (map fst (shownTrace ed w ++ closedTrace)).
  exists (EvShowWhile 250 :: map fst rest).
  unfold events. rewrite Htrace.
  repeat rewrite map_app. cbn [map fst startedTrace closedTrace shownTrace app].
  repeat split; try reflexivity; cbn; assumption.
Qed.

Lemma C6_transaction_opened_before_rename_witness :
  wordUnderCursor fooEditor = Some fooWord
  /\ inputOf happyHost fooEditor fooWord = Fulfilled "bar"
  /\ exists before after,
       events (snd (runToCompletion happyHost (initialState fooEditor)))
       = before ++ EvCreateBulkEdit
           :: EvRename (getModel fooEditor) (getPosition fooEditor) "bar"
           :: after
       /\ existsb isRename before = false
       /\ existsb isCreateBulkEdit before = false
       /\ existsb isRename after = false
       /\ existsb isCreateBulkEdit after = false.
Proof.
  split; [reflexivity | split; [reflexivity | ]].
  apply (C6_transaction_opened_before_rename happyHost fooEditor fooWord "bar");
    reflexivity.
Defined.

(** C10: once a name is accepted, the reset of the context key and the focus
    of the editor come before the transaction is opened and the provider is
    called; from the reset on every call is made with the key at [false], so
    the accept and cancel commands, whose precondition is that key, are
    disabled at each of them and when the operation ends. *)
Theorem C10_hidden_during_rename (host : Host) (ed : Editor) (w : Word.t)
    (newName : string) :
  wordUnderCursor ed = Some w ->
  inputOf host ed w = Fulfilled newName ->
  exists rest,
    trace (snd (runToCompletion host (initialState ed)))
    = shownTrace ed w
        ++ [ (EvContextReset, false); (EvFocus, false);
             (EvCreateBulkEdit, false);
             (EvRename (getModel ed) (getPosition ed) newName, false) ]
        ++ rest
    /\ noRenameCalls rest
    /\ Forall (fun entry => commandsDisabled (snd entry))
         ([ (EvContextReset, false); (EvFocus, false);
            (EvCreateBulkEdit, false);
            (EvRename (getModel ed) (getPosition ed) newName, false) ]
          ++ rest)
    /\ commandsDisabled
         (renameInputVisible (snd (runToCompletion host (initialState ed)))).
Proof.
  intros Hword Hin.
  destruct (accepted_trace host ed w newName Hword Hin)
    as (rest & Htrace & Hhidden & Hcalls & Hend).
  exists ((EvShowWhile 250, false) :: rest).
  split; [exact Htrace | ].
  split; [exact Hcalls | ].
  split.
  - apply hiddenThroughout_disabled.
    repeat (constructor; [reflexivity | ]). exact Hhidden.
  - rewrite Hend. exact commandsDisabled_hidden.
Qed.

Lemma C10_hidden_during_rename_witness :
  wordUnderCursor fooEditor = Some fooWord
  /\ inputOf conflictHost fooEditor fooWord = Fulfilled "bar"
  /\ commandsDisabled
       (renameInputVisible
          (snd (runToCompletion conflictHost (initialState fooEditor)))).
Proof.
  split; [reflexivity | split; [reflexivity | ]].
  destruct (C10_hidden_during_rename conflictHost fooEditor fooWord "bar"
              eq_refl eq_refl) as (rest & _ & _ & _ & Hend).
  exact Hend.
Defined.

(** ** Outcomes of the rename operation *)

(** C8: when the provider answers with edits (no reject reason that counts)
    and the commit succeeds, the promise of [run] resolves, no message is
    shown, and the editor's selection is the one the commit yielded if it
    yielded one ([setSelection] called once, with it) and is unchanged
    otherwise ([setSelection] not called). *)
Theorem C8_commit_places_selection (host : Host) (ed : Editor) (w : Word.t)
    (newName : string) (result : IRenameResult)
    (selection : option Selection.t) :
  wordUnderCursor ed = Some w ->
  inputOf host ed w = Fulfilled newName ->
  renameOf host ed newName = Fulfilled result ->
  truthyReason (rejectReason result) = None ->
  commitOf host result = Fulfilled selection ->
  fst (runToCompletion host (initialState ed)) = Resolved
  /\ getSelection (editor (snd (runToCompletion host (initialState ed))))
     = match selection with
       | Some sel => sel
       | None => getSelection ed
       end
  /\ filter isSetSelection
       (events (snd (runToCompletion host (initialState ed))))
     = match selection with
       | Some sel => [EvSetSelection sel]
       | None => []
       end
  /\ existsb isMessage (events (snd (runToCompletion host (initialState ed))))
     = false.
Proof.
  intros Hword Hin Hren Hrej Hfin.
  rewrite (path_committed host ed w Hword newName Hin result Hren Hrej
             selection Hfin).
  destruct selection as [sel | ]; repeat split.
Qed.

Lemma C8_commit_places_selection_witness :
  (fst (runToCompletion happyHost (initialState fooEditor)) = Resolved
   /\ getSelection (editor (snd (runToCompletion happyHost (initialState fooEditor))))
      = movedSelection)
  /\ getSelection (editor (snd (runToCompletion quietHost (initialState fooEditor))))
     = getSelection fooEditor.
Proof.
  split.
  - destruct (C8_commit_places_selection happyHost fooEditor fooWord "bar"
                (mkRenameResult [oneEdit] None) (Some movedSelection)
                eq_refl eq_refl eq_refl eq_refl eq_refl)
      as (Hres & Hsel & _).
    split; [exact Hres | exact Hsel].
  - destruct (C8_commit_places_selection quietHost fooEditor fooWord "bar"
                (mkRenameResult [oneEdit] None) None
                eq_refl eq_refl eq_refl eq_refl eq_refl)
      as (_ & Hsel & _).
    exact Hsel.
Defined.

(** C2 as stated fails for the empty reason: the provider's result carries
    [rejectReason = ''], the test [if (result.rejectReason)] is false, so the
    edits are added, [finish] is called and no message is shown. *)
Lemma C2_empty_reason_counterexample :
  ~ (forall host ed w newName result reason,
       wordUnderCursor ed = Some w ->
       inputOf host ed w = Fulfilled newName ->
       renameOf host ed newName = Fulfilled result ->
       rejectReason result = Some reason ->
       rejectionAbsorbed host ed reason).
Proof.
  intros Hclaim.
  destruct (Hclaim emptyReasonHost fooEditor fooWord "bar" emptyReason ""
              eq_refl eq_refl eq_refl eq_refl)
    as (_ & _ & _ & Hfinish).
  vm_compute in Hfinish. discriminate Hfinish.
Qed.

(** C2 (amended): when the provider's result carries a non-empty reject
    reason, that reason is shown verbatim at informational severity and is the
    only message, no edits are added to the transaction, [finish] is not
    called, and the promise of [run] resolves. *)
Theorem C2_rejection_absorbed (host : Host) (ed : Editor) (w : Word.t)
    (newName : string) (result : IRenameResult) (reason : string) :
  wordUnderCursor ed = Some w ->
  inputOf host ed w = Fulfilled newName ->
  renameOf host ed newName = Fulfilled result ->
  rejectReason result = Some reason ->
  reason <> "" ->
  rejectionAbsorbed host ed reason.
Proof.
  intros Hword Hin Hren Hreason Hnonempty.
  assert (Hrej : truthyReason (rejectReason result) = Some reason).
  { rewrite Hreason. destruct reason; [congruence | reflexivity]. }
  unfold rejectionAbsorbed.
  rewrite (path_rejected host ed w Hword newName Hin result Hren reason Hrej).
  repeat split.
Qed.

Lemma C2_rejection_absorbed_witness :
  wordUnderCursor fooEditor = Some fooWord
  /\ inputOf rejectingHost fooEditor fooWord = Fulfilled "bar"
  /\ renameOf rejectingHost fooEditor "bar" = Fulfilled noReferences
  /\ rejectReason noReferences = Some "no other references found"
  /\ "no other references found" <> ""
  /\ rejectionAbsorbed rejectingHost fooEditor "no other references found".
Proof.
  repeat (split; [reflexivity || discriminate | ]).
  apply (C2_rejection_absorbed rejectingHost fooEditor fooWord "bar"
           noReferences "no other references found");
    reflexivity || discriminate.
Defined.

(** C1: with a word under the cursor, the name "bar" accepted, one edit
    returned by the provider and a commit that fails with [conflict], the
    promise of [run] is rejected with [conflict] and no message at all is
    shown: the error callback of [renameOperation] is attached to
    [_prepareRename] only, so a failure of [finish] passes it by.  The same
    error coming from the provider is reported. *)
Theorem C1_commit_failure_unreported :
  wordUnderCursor fooEditor = Some fooWord
  /\ inputOf conflictHost fooEditor fooWord = Fulfilled "bar"
  /\ renameOf conflictHost fooEditor "bar"
     = Fulfilled (mkRenameResult [oneEdit] None)
  /\ commitOf conflictHost (mkRenameResult [oneEdit] None) = Failed conflict
  /\ fst (runToCompletion conflictHost (initialState fooEditor))
     = RejectedWith conflict
  /\ existsb isMessage
       (events (snd (runToCompletion conflictHost (initialState fooEditor))))
     = false
  /\ existsb isFinish
       (events (snd (runToCompletion conflictHost (initialState fooEditor))))
     = true.
Proof. repeat split. Qed.

(** The sibling path: a provider that fails with a non-string error is
    reported at error severity with the generic message, and the promise is
    rejected. *)
Lemma provider_failure_reported (host : Host) (ed : Editor) (w : Word.t)
    (newName name message : string) :
  wordUnderCursor ed = Some w ->
  inputOf host ed w = Fulfilled newName ->
  renameOf host ed newName = Failed (JsError name message) ->
  fst (runToCompletion host (initialState ed))
  = RejectedWith (JsError name message)
  /\ filter isMessage (events (snd (runToCompletion host (initialState ed))))
     = [EvMessage Severity.Error "Sorry, rename failed to execute."].
Proof.
  intros Hword Hin Hren.
  rewrite (path_rename_failed host ed w Hword newName Hin _ Hren).
  split; reflexivity.
Qed.

(** Whatever the commit fails with, no message is shown. *)
Lemma commit_failure_shows_nothing (host : Host) (ed : Editor) (w : Word.t)
    (newName : string) (result : IRenameResult) (err : JsValue) :
  wordUnderCursor ed = Some w ->
  inputOf host ed w = Fulfilled newName ->
  renameOf host ed newName = Fulfilled result ->
  truthyReason (rejectReason result) = None ->
  commitOf host result = Failed err ->
  fst (runToCompletion host (initialState ed)) = RejectedWith err
  /\ existsb isMessage (events (snd (runToCompletion host (initialState ed))))
     = false.
Proof.
  intros Hword Hin Hren Hrej Hfin.
  rewrite (path_commit_failed host ed w Hword newName Hin result Hren Hrej
             err Hfin).
  split; reflexivity.
Qed.

(** ** Beyond a fresh state *)

(** X1: an invocation does not look at what came before it.  Started in any
    state, [run] to completion gives the result it gives from a fresh state on
    the same editor, leaves the editor the same way, and appends the same
    calls to the trace; the key ends at [false] when a word was found and is
    left alone when none was. *)
Theorem runToCompletion_frame (host : Host) (s : State) :
  fst (runToCompletion host s)
  = fst (runToCompletion host (initialState (editor s)))
  /\ editor (snd (runToCompletion host s))
     = editor (snd (runToCompletion host (initialState (editor s))))
  /\ events (snd (runToCompletion host s))
     = events s
         ++ events (snd (runToCompletion host (initialState (editor s))))
  /\ renameInputVisible (snd (runToCompletion host s))
     = match wordUnderCursor (editor s) with
       | Some _ => false
       | None => renameInputVisible s
       end.
Proof.
  destruct s as [ed visible entries].
  unfold wordUnderCursor, events. unfold_controller. cbn.
  destruct (getWordAtPosition (getModel ed)
              (Selection.getStartPosition (getSelection ed))) as [w | ].
  2:{ cbn. now rewrite app_nil_r. }
  destruct (selectionSubRange (getSelection ed) w) as [a b]. cbn.
  destruct (inputOutcome host (wordRange (getSelection ed) w) (Word.word w) a b)
    as [newName | err]; cbn.
  2:{ destruct (isPromiseCanceledError host err); cbn;
        repeat rewrite map_app; repeat rewrite <- app_assoc; auto. }
  destruct (renameOutcome host (getModel ed) (getPosition ed) newName)
    as [result | err]; cbn.
  2:{ destruct err; cbn;
        repeat rewrite map_app; repeat rewrite <- app_assoc; auto. }
  destruct (truthyReason (rejectReason result)); cbn.
  { repeat rewrite map_app; repeat rewrite <- app_assoc; auto. }
  destruct (finishOutcome host (mkBulkEdit (edits result)))
    as [[sel | ] | err]; cbn;
    repeat rewrite map_app; repeat rewrite <- app_assoc; auto.
Qed.

Lemma path_no_word (host : Host) (ed : Editor) :
  wordUnderCursor ed = None ->
  runToCompletion host (initialState ed) = (ReturnedUndefined, initialState ed).
Proof.
  intros Hnone. unfold runToCompletion.
  now rewrite (run_without_word host (initialState ed) Hnone).
Qed.

(** Split an invocation from a fresh state into its seven ways to end, each
    goal rewritten with the result and final state of its path. *)
Ltac by_paths host ed :=
  let w := fresh "w" in
  let newName := fresh "newName" in
  let result := fresh "result" in
  let reason := fresh "reason" in
  let selection := fresh "selection" in
  let err := fresh "err" in
  let Hword := fresh "Hword" in
  let Hin := fresh "Hin" in
  let Hren := fresh "Hren" in
  let Hrej := fresh "Hrej" in
  let Hfin := fresh "Hfin" in
  destruct (wordUnderCursor ed) as [w | ] eqn:Hword;
  [ destruct (inputOf host ed w) as [newName | err] eqn:Hin;
    [ destruct (renameOf host ed newName) as [result | err] eqn:Hren;
      [ destruct (truthyReason (rejectReason result)) as [reason | ] eqn:Hrej;
        [ rewrite (path_rejected host ed w Hword newName Hin result Hren
                     reason Hrej)
        | destruct (commitOf host result) as [selection | err] eqn:Hfin;
          [ rewrite (path_committed host ed w Hword newName Hin result Hren
                       Hrej selection Hfin);
            destruct selection
          | rewrite (path_commit_failed host ed w Hword newName Hin result
                       Hren Hrej err Hfin) ] ]
      | rewrite (path_rename_failed host ed w Hword newName Hin err Hren);
        destruct err ]
    | rewrite (path_input_failed host ed w Hword err Hin) ]
  | rewrite (path_no_word host ed Hword) ].

(** ** What the user is told *)

(** X2: an invocation shows at most one message.  If it is informational the
    promise of [run] resolves; if it is an error it carries the fixed text,
    and the promise is rejected with a value that is not a string. *)
Theorem at_most_one_message (host : Host) (ed : Editor) :
  filter isMessage (events (snd (runToCompletion host (initialState ed)))) = []
  \/ (exists reason,
        filter isMessage (events (snd (runToCompletion host (initialState ed))))
        = [EvMessage Severity.Info reason]
        /\ fst (runToCompletion host (initialState ed)) = Resolved)
  \/ (exists err,
        filter isMessage (events (snd (runToCompletion host (initialState ed))))
        = [EvMessage Severity.Error "Sorry, rename failed to execute."]
        /\ fst (runToCompletion host (initialState ed)) = RejectedWith err
        /\ isJsString err = false).
Proof.
  by_paths host ed; cbn [fst snd];
    try (left; reflexivity);
    try (right; left; eexists; split; reflexivity);
    try (right; right; eexists; repeat split; reflexivity).
Qed.

(** X3: a provider that fails with a plain string is handled like a
    rejection: the string is shown at informational severity, it is the only
    message, the promise of [run] resolves, nothing is added or committed and
    the editor is left as it was. *)
Theorem provider_string_error_is_advisory (host : Host) (ed : Editor)
    (w : Word.t) (newName text : string) :
  wordUnderCursor ed = Some w ->
  inputOf host ed w = Fulfilled newName ->
  renameOf host ed newName = Failed (JsString text) ->
  fst (runToCompletion host (initialState ed)) = Resolved
  /\ filter isMessage (events (snd (runToCompletion host (initialState ed))))
     = [EvMessage Severity.Info text]
  /\ existsb isBulkAdd (events (snd (runToCompletion host (initialState ed))))
     = false
  /\ existsb isFinish (events (snd (runToCompletion host (initialState ed))))
     = false
  /\ editor (snd (runToCompletion host (initialState ed))) = ed.
Proof.
  intros Hword Hin Hren.
  rewrite (path_rename_failed host ed w Hword newName Hin _ Hren).
  repeat split.
Qed.

Lemma provider_string_error_is_advisory_witness :
  wordUnderCursor fooEditor = Some fooWord
  /\ inputOf providerStringHost fooEditor fooWord = Fulfilled "bar"
  /\ renameOf providerStringHost fooEditor "bar" = Failed (JsString "No result.")
  /\ filter isMessage
       (events (snd (runToCompletion providerStringHost (initialState fooEditor))))
     = [EvMessage Severity.Info "No result."].
Proof.
  repeat (split; [reflexivity | ]).
  destruct (provider_string_error_is_advisory providerStringHost fooEditor
              fooWord "bar" "No result." eq_refl eq_refl eq_refl)
    as (_ & Hmsg & _).
  exact Hmsg.
Defined.

(** X4: a provider that fails with anything but a string is reported once, at
    error severity with the fixed text; the promise of [run] is rejected with
    that very error, nothing is added or committed and the editor is left as
    it was. *)
Theorem provider_error_reported_and_reraised (host : Host) (ed : Editor)
    (w : Word.t) (newName : string) (err : JsValue) :
  wordUnderCursor ed = Some w ->
  inputOf host ed w = Fulfilled newName ->
  renameOf host ed newName = Failed err ->
  isJsString err = false ->
  fst (runToCompletion host (initialState ed)) = RejectedWith err
  /\ filter isMessage (events (snd (runToCompletion host (initialState ed))))
     = [EvMessage Severity.Error "Sorry, rename failed to execute."]
  /\ existsb isBulkAdd (events (snd (runToCompletion host (initialState ed))))
     = false
  /\ existsb isFinish (events (snd (runToCompletion host (initialState ed))))
     = false
  /\ editor (snd (runToCompletion host (initialState ed))) = ed.
Proof.
  intros Hword Hin Hren Hobj.
  rewrite (path_rename_failed host ed w Hword newName Hin _ Hren).
  destruct err; [discriminate Hobj | ].
  repeat split.
Qed.

Lemma provider_error_reported_and_reraised_witness :
  wordUnderCursor fooEditor = Some fooWord
  /\ inputOf providerErrorHost fooEditor fooWord = Fulfilled "bar"
  /\ renameOf providerErrorHost fooEditor "bar" = Failed providerDown
  /\ isJsString providerDown = false
  /\ fst (runToCompletion providerErrorHost (initialState fooEditor))
     = RejectedWith providerDown.
Proof.
  repeat (split; [reflexivity | ]).
  destruct (provider_error_reported_and_reraised providerErrorHost fooEditor
              fooWord "bar" providerDown eq_refl eq_refl eq_refl eq_refl)
    as (Hres & _).
  exact Hres.
Defined.

(** X5: the progress service is called exactly when a name was accepted, once
    and with a delay of 250; with no word, or with a failed or cancelled
    input session, it is not called. *)
Theorem progress_only_for_accepted_name (host : Host) (ed : Editor) :
  filter isShowWhile (events (snd (runToCompletion host (initialState ed))))
  = match wordUnderCursor ed with
    | Some w =>
        match inputOf host ed w with
        | Fulfilled _ => [EvShowWhile 250]
        | Failed _ => []
        end
    | None => []
    end.
Proof.
  destruct (wordUnderCursor ed) as [w | ] eqn:Hword.
  2:{ now rewrite (path_no_word host ed Hword). }
  destruct (inputOf host ed w) as [newName | err] eqn:Hin.
  2:{ now rewrite (path_input_failed host ed w Hword err Hin). }
  destruct (renameOf host ed newName) as [result | err] eqn:Hren.
  2:{ rewrite (path_rename_failed host ed w Hword newName Hin err Hren).
      now destruct err. }
  destruct (truthyReason (rejectReason result)) as [reason | ] eqn:Hrej.
  { now rewrite (path_rejected host ed w Hword newName Hin result Hren
                   reason Hrej). }
  destruct (commitOf host result) as [selection | err] eqn:Hfin.
  - rewrite (path_committed host ed w Hword newName Hin result Hren Hrej
               selection Hfin).
    now destruct selection.
  - now rewrite (path_commit_failed host ed w Hword newName Hin result Hren
                   Hrej err Hfin).
Qed.

(** ** What reaches the transaction *)

Lemma truthyReason_none (reason : option string) :
  reason = None \/ reason = Some "" -> truthyReason reason = None.
Proof. intros [H | H]; now rewrite H. Qed.

(** X6: a result whose reject reason is absent or the empty string is
    committed, whatever its edits are (none at all included): the transaction
    gets exactly [result.edits] in one [add], [finish] is then called once, on
    a transaction holding exactly those edits, and no message is shown whether
    the commit succeeds or fails. *)
Theorem commit_receives_provider_edits (host : Host) (ed : Editor)
    (w : Word.t) (newName : string) (result : IRenameResult) :
  wordUnderCursor ed = Some w ->
  inputOf host ed w = Fulfilled newName ->
  renameOf host ed newName = Fulfilled result ->
  rejectReason result = None \/ rejectReason result = Some "" ->
  filter (fun e => isBulkAdd e || isFinish e)
    (events (snd (runToCompletion host (initialState ed))))
  = [EvBulkAdd (edits result); EvFinish (mkBulkEdit (edits result))]
  /\ existsb isMessage (events (snd (runToCompletion host (initialState ed))))
     = false.
Proof.
  intros Hword Hin Hren Hreason.
  pose proof (truthyReason_none _ Hreason) as Hrej.
  destruct (commitOf host result) as [selection | err] eqn:Hfin.
  - rewrite (path_committed host ed w Hword newName Hin result Hren Hrej
               selection Hfin).
    destruct selection; split; reflexivity.
  - rewrite (path_commit_failed host ed w Hword newName Hin result Hren Hrej
               err Hfin).
    split; reflexivity.
Qed.

Lemma commit_receives_provider_edits_witness :
  wordUnderCursor fooEditor = Some fooWord
  /\ inputOf emptyReasonHost fooEditor fooWord = Fulfilled "bar"
  /\ renameOf emptyReasonHost fooEditor "bar" = Fulfilled emptyReason
  /\ (rejectReason emptyReason = None \/ rejectReason emptyReason = Some "")
  /\ filter (fun e => isBulkAdd e || isFinish e)
       (events (snd (runToCompletion emptyReasonHost (initialState fooEditor))))
     = [EvBulkAdd [oneEdit]; EvFinish (mkBulkEdit [oneEdit])].
Proof.
  split; [reflexivity | split; [reflexivity | split; [reflexivity | ]]].
  split; [right; reflexivity | ].
  destruct (commit_receives_provider_edits emptyReasonHost fooEditor fooWord
              "bar" emptyReason eq_refl eq_refl eq_refl (or_intror eq_refl))
    as (Hcalls & _).
  exact Hcalls.
Defined.

(** ** How an invocation can fail *)

(** X7: the promise of [run] is rejected in three cases only, and always with
    the collaborator's own error: the input session failed with something
    other than a cancellation, the provider failed with something other than
    a string, or the commit failed. *)
Theorem rejection_origin (host : Host) (ed : Editor) (err : JsValue) :
  fst (runToCompletion host (initialState ed)) = RejectedWith err ->
  exists w,
    wordUnderCursor ed = Some w
    /\ ((inputOf host ed w = Failed err
         /\ isPromiseCanceledError host err = false)
        \/ exists newName,
             inputOf host ed w = Fulfilled newName
             /\ ((renameOf host ed newName = Failed err
                  /\ isJsString err = false)
                 \/ exists result,
                      renameOf host ed newName = Fulfilled result
                      /\ truthyReason (rejectReason result) = None
                      /\ commitOf host result = Failed err)).
Proof.
  destruct (wordUnderCursor ed) as [w | ] eqn:Hword.
  2:{ rewrite (path_no_word host ed Hword). discriminate. }
  intros Hres. exists w. split; [reflexivity | ].
  destruct (inputOf host ed w) as [newName | e] eqn:Hin.
  2:{ rewrite (path_input_failed host ed w Hword e Hin) in Hres.
      cbn [fst] in Hres. left.
      destruct (isPromiseCanceledError host e) eqn:Hc; [discriminate | ].
      injection Hres as ->. now split. }
  right. exists newName. split; [reflexivity | ].
  destruct (renameOf host ed newName) as [result | e] eqn:Hren.
  2:{ rewrite (path_rename_failed host ed w Hword newName Hin e Hren) in Hres.
      left. destruct e; cbn [fst] in Hres; [discriminate | ].
      injection Hres as <-. now split. }
  right. exists result. split; [reflexivity | ].
  destruct (truthyReason (rejectReason result)) as [reason | ] eqn:Hrej.
  { rewrite (path_rejected host ed w Hword newName Hin result Hren reason Hrej)
      in Hres. discriminate. }
  split; [reflexivity | ].
  destruct (commitOf host result) as [selection | e] eqn:Hfin.
  - rewrite (path_committed host ed w Hword newName Hin result Hren Hrej
               selection Hfin) in Hres. discriminate.
  - rewrite (path_commit_failed host ed w Hword newName Hin result Hren Hrej
               e Hfin) in Hres.
    cbn [fst] in Hres. now injection Hres as ->.
Qed.

Lemma rejection_origin_witness :
  fst (runToCompletion conflictHost (initialState fooEditor))
  = RejectedWith conflict
  /\ exists w,
       wordUnderCursor fooEditor = Some w
       /\ ((inputOf conflictHost fooEditor w = Failed conflict
            /\ isPromiseCanceledError conflictHost conflict = false)
           \/ exists newName,
                inputOf conflictHost fooEditor w = Fulfilled newName
                /\ ((renameOf conflictHost fooEditor newName = Failed conflict
                     /\ isJsString conflict = false)
                    \/ exists result,
                         renameOf conflictHost fooEditor newName
                         = Fulfilled result
                         /\ truthyReason (rejectReason result) = None
                         /\ commitOf conflictHost result = Failed conflict)).
Proof.
  split; [reflexivity | ].
  apply (rejection_origin conflictHost fooEditor conflict). reflexivity.
Defined.

(** X8: unless the promise of [run] resolves, the editor is exactly as it was
    and [setSelection] was not called: a bare return, a failed input session,
    a failed provider and a failed commit all leave the selection alone. *)
Theorem failed_run_keeps_editor (host : Host) (ed : Editor) :
  fst (runToCompletion host (initialState ed)) <> Resolved ->
  editor (snd (runToCompletion host (initialState ed))) = ed
  /\ existsb isSetSelection
       (events (snd (runToCompletion host (initialState ed))))
     = false.
Proof.
  by_paths host ed; cbn [fst snd]; intros Hres;
    try (exfalso; apply Hres; reflexivity);
    split; reflexivity.
Qed.

Lemma failed_run_keeps_editor_witness :
  fst (runToCompletion conflictHost (initialState fooEditor)) <> Resolved
  /\ editor (snd (runToCompletion conflictHost (initialState fooEditor)))
     = fooEditor.
Proof.
  split; [discriminate | ].
  destruct (failed_run_keeps_editor conflictHost fooEditor) as (Hed & _).
  - discriminate.
  - exact Hed.
Defined.

(** ** More on the sub-range *)

(** X9: for a word of the tokenizer the sub-range never leaves the text on the
    outside, whatever the selection: [selectionStart] is not negative and
    [selectionEnd] does not exceed the length of the word. *)
Theorem sub_range_outer_bounds (selection : Selection.t) (word : Word.t) :
  Word.well_formed word ->
  0 <= fst (selectionSubRange selection word)
  /\ snd (selectionSubRange selection word) <= Word.length word.
Proof.
  unfold Word.well_formed, selectionSubRange. intros Hwf.
  destruct (negb (Selection.isEmpty selection)
            && (Selection.startLineNumber selection
                =? Selection.endLineNumber selection));
    cbn [fst snd]; lia.
Qed.

Lemma sub_range_outer_bounds_witness :
  Word.well_formed fooWord
  /\ 0 <= fst (selectionSubRange (Selection.mk 1 2 1 40) fooWord)
  /\ snd (selectionSubRange (Selection.mk 1 2 1 40) fooWord)
     <= Word.length fooWord.
Proof.
  split; [reflexivity | ].
  apply (sub_range_outer_bounds (Selection.mk 1 2 1 40) fooWord).
  reflexivity.
Defined.

(** X10: a non-empty selection on one line that starts at or before the word
    and reaches its end or beyond is clamped to the whole word, the same
    sub-range an empty selection gets. *)
Theorem selection_covering_word (selection : Selection.t) (word : Word.t) :
  Word.well_formed word ->
  Selection.isEmpty selection = false ->
  Selection.startLineNumber selection = Selection.endLineNumber selection ->
  Selection.startColumn selection <= Word.startColumn word ->
  Word.endColumn word <= Selection.endColumn selection ->
  selectionSubRange selection word = (0, Word.length word).
Proof.
  unfold Word.well_formed. intros Hwf Hempty Hline Hstart Hend.
  rewrite (selectionSubRange_clamped _ _ Hempty Hline).
  f_equal; lia.
Qed.

Lemma selection_covering_word_witness :
  Word.well_formed fooWord
  /\ selectionSubRange (Selection.mk 1 3 1 12) fooWord
     = (0, Word.length fooWord).
Proof.
  split; [reflexivity | ].
  apply (selection_covering_word (Selection.mk 1 3 1 12) fooWord).
  - reflexivity.
  - reflexivity.
  - reflexivity.
  - cbn; lia.
  - cbn; lia.
Defined.

(** X11: a non-empty selection on one line that starts right at the end
    column of the word (where the tokenizer still answers with that word)
    gets the empty sub-range at the end of the text: nothing is
    pre-selected. *)
Theorem selection_starting_at_word_end (selection : Selection.t)
    (word : Word.t) :
  Word.well_formed word ->
  Selection.isEmpty selection = false ->
  Selection.startLineNumber selection = Selection.endLineNumber selection ->
  Selection.startColumn selection = Word.endColumn word ->
  Selection.startColumn selection <= Selection.endColumn selection ->
  selectionSubRange selection word = (Word.length word, Word.length word).
Proof.
  unfold Word.well_formed. intros Hwf Hempty Hline Hstart Hord.
  rewrite (selectionSubRange_clamped _ _ Hempty Hline).
  assert (0 <= Word.length word) by (unfold Word.length; lia).
  f_equal; lia.
Qed.

Lemma selection_starting_at_word_end_witness :
  Word.well_formed fooWord
  /\ selectionSubRange (Selection.mk 1 8 1 11) fooWord
     = (Word.length fooWord, Word.length fooWord).
Proof.
  split; [reflexivity | ].
  apply (selection_starting_at_word_end (Selection.mk 1 8 1 11) fooWord).
  - reflexivity.
  - reflexivity.
  - reflexivity.
  - reflexivity.
  - cbn; lia.
Defined.

(** ** The session as the command router sees it *)

(** X12: [run] has no guard of its own against being invoked again.  From any
    state in which a word is under the cursor, the key already [true]
    included, it sets the key, shows the field for that word and returns a
    promise; in the state it leaves, the accept and the cancel command are
    both enabled. *)
Theorem run_shows_input_from_any_state (host : Host) (s : State) (w : Word.t) :
  wordUnderCursor (editor s) = Some w ->
  (exists p, fst (run host s) = Some p)
  /\ trace (snd (run host s)) = trace s ++ shownTrace (editor s) w
  /\ editor (snd (run host s)) = editor s
  /\ commandEnabled (renameInputVisible (snd (run host s)))
       acceptRenameInputCommand = true
  /\ commandEnabled (renameInputVisible (snd (run host s)))
       cancelRenameInputCommand = true.
Proof.
  unfold wordUnderCursor. intros Hword.
  unfold run, bind, ret, editor_getSelection, editor_getModel.
  rewrite Hword. unfold shownTrace.
  destruct (selectionSubRange (getSelection (editor s)) w) as [a b].
  unfold _renameInputVisible_set, getInput, bind, ret, log. cbn.
  rewrite <- app_assoc.
  repeat split. eexists; reflexivity.
Qed.

Lemma run_shows_input_from_any_state_witness :
  wordUnderCursor (editor busyState) = Some fooWord
  /\ trace (snd (run happyHost busyState))
     = trace busyState ++ shownTrace (editor busyState) fooWord.
Proof.
  split; [reflexivity | ].
  destruct (run_shows_input_from_any_state happyHost busyState fooWord eq_refl)
    as (_ & Htrace & _).
  exact Htrace.
Defined.
